(** * Website builder: project store and line-addressed patch engine

    A shallow embedding of [main.py]: the five file operations
    ([ensure_files_exist], [read_file], [write_file], [update_file],
    [get_website_state]), the tool wrappers that guard them with the
    list of valid file names, the environment checks made when the module
    loads and the main block that runs before calls are served.

    Python text values are [string]s; the project directory is a finite
    map from file name to the characters stored in the file; every
    operation is a computation in a state-and-exception monad over that
    directory. *)

From Stdlib Require Import ZArith Ascii String.
From stdpp Require Import gmap strings list fin_maps.

Local Open Scope string_scope.
Local Open Scope list_scope.
Local Open Scope Z_scope.

(** Concatenation of strings unfolds on a constructor in proofs below. *)
Local Arguments String.append !_ _ / : simpl nomatch.

(** ** Text-mode input and output

    The source opens every file with [open(path, mode, encoding="utf-8")]
    and leaves [newline] at its default.  On input Python then translates
    each of the terminators CR LF and CR into a single LF before the
    program sees the text; on output LF is written as [os.linesep], which
    is LF itself on the POSIX hosts modelled here. *)

Module PyText.

Definition LF : ascii := "010"%char.
Definition CR : ascii := "013"%char.

(** The one-character string [chr(10)], written as a backslash escape in
    the source. *)
Definition nl : string := String LF EmptyString.

(** Translation performed by a text-mode read. *)
Fixpoint universal_newlines (raw : string) : string :=
  match raw with
  | EmptyString => EmptyString
  | String c rest =>
      if Ascii.eqb c CR then
        match rest with
        | String c' rest' =>
            if Ascii.eqb c' LF then String LF (universal_newlines rest')
            else String LF (universal_newlines rest)
        | EmptyString => String LF EmptyString
        end
      else String c (universal_newlines rest)
  end.

(** Translation performed by a text-mode write when [os.linesep] is LF. *)
Definition linesep_out (text : string) : string := text.

(** [f.readlines()]: the text cut after every LF; each piece keeps its
    terminator, and a last piece without one is kept as it is. *)
Fixpoint readlines (text : string) : list string :=
  match text with
  | EmptyString => []
  | String c rest =>
      if Ascii.eqb c LF then String c EmptyString :: readlines rest
      else match readlines rest with
           | [] => [String c EmptyString]
           | l :: ls => String c l :: ls
           end
  end.

(** [f.writelines(lines)]: the items written one after the other, nothing
    added between or after them. *)
Fixpoint writelines (lines : list string) : string :=
  match lines with
  | [] => EmptyString
  | l :: ls => l +:+ writelines ls
  end.

(** No carriage return occurs in the text. *)
Fixpoint no_cr (text : string) : bool :=
  match text with
  | EmptyString => true
  | String c rest => negb (Ascii.eqb c CR) && no_cr rest
  end.

(** The text ends with LF. *)
Fixpoint ends_with_nl (text : string) : bool :=
  match text with
  | EmptyString => false
  | String c EmptyString => Ascii.eqb c LF
  | String _ rest => ends_with_nl rest
  end.

(** The text is empty or its last line is terminated. *)
Definition terminated (text : string) : bool :=
  match text with
  | EmptyString => true
  | _ => ends_with_nl text
  end.

End PyText.

Import PyText.

(** ** The project directory *)

(** The files of [WEBSITE_DIR], by name, each with the characters stored
    in it.  [None] is the state in which the directory itself is absent. *)
Abbreviation fs := (option (gmap string string)).

Inductive exn : Type :=
| FileNotFoundError (file : string).

(** Computations that read and change the directory and may raise. *)
Definition M (A : Type) : Type := fs → (exn + A) * fs.

Definition ret {A} (a : A) : M A := λ s, (inr a, s).

Definition raise {A} (e : exn) : M A := λ s, (inl e, s).

Definition bind {A B} (m : M A) (k : A → M B) : M B :=
  λ s, match m s with
       | (inl e, s') => (inl e, s')
       | (inr a, s') => k a s'
       end.

Notation "'let*' x ':=' c1 'in' c2" := (bind c1 (λ x, c2))
  (at level 10, x name, c1 at level 100, c2 at level 200).

(** [os.path.exists(WEBSITE_DIR)] *)
Definition dir_exists : M bool := λ s, (inr (bool_decide (is_Some s)), s).

(** [os.makedirs(WEBSITE_DIR)], called only when the directory is absent. *)
Definition makedirs : M unit :=
  λ s, match s with
       | None => (inr tt, Some ∅)
       | Some _ => (inr tt, s)
       end.

(** The stored characters of [os.path.join(WEBSITE_DIR, file)], if any. *)
Definition stored (file : string) (s : fs) : option string :=
  match s with
  | Some m => m !! file
  | None => None
  end.

(** [os.path.exists(os.path.join(WEBSITE_DIR, file))] *)
Definition path_exists (file : string) : M bool :=
  λ s, (inr (bool_decide (is_Some (stored file s))), s).

(** [with open(path, "r", encoding="utf-8") as f: f.read()] *)
Definition open_read (file : string) : M string :=
  λ s, match stored file s with
       | Some raw => (inr (universal_newlines raw), s)
       | None => raise (FileNotFoundError file) s
       end.

(** [with open(path, "w", encoding="utf-8") as f: f.write(text)]: the
    file is created or truncated; a missing directory raises. *)
Definition open_write (file text : string) : M unit :=
  λ s, match s with
       | Some m => (inr tt, Some (<[file := linesep_out text]> m))
       | None => raise (FileNotFoundError file) s
       end.

(** ** Website builder logic *)

Definition FILES : list string := ["index.html"; "styles.css"; "script.js"].

(** One entry of a patch batch, in the format the docstring of
    [update_file] gives: the action, the line number, and the optional
    content ([None] when the key is absent). *)
Record Change : Type := mkChange {
  action : string;
  line : Z;
  content : option string
}.

(** The dictionaries the operations return. *)
Inductive pyresult : Type :=
| RCreated (created : list string)
| RError (error : string)
| RContent (file content : string)
| RStatus (file : string)
| RStatusChanges (file : string) (changes : list Change)
| RWebsite (website : gmap string string).

(** The loop of [ensure_files_exist] over the remaining [files], with the
    list [created] built so far. *)
Fixpoint ensure_loop (files created : list string) : M (list string) :=
  match files with
  | [] => ret created
  | file :: rest =>
      let* present := path_exists file in
      if negb present then
        let* _ := open_write file EmptyString in
        ensure_loop rest (created ++ [file])
      else ensure_loop rest created
  end.

Definition ensure_files_exist : M pyresult :=
  let* present := dir_exists in
  let* _ := (if negb present then makedirs else ret tt) in
  let* created := ensure_loop FILES [] in
  ret (RCreated created).

Definition read_file (file : string) : M pyresult :=
  let* present := path_exists file in
  if negb present then ret (RError (file +:+ " does not exist"))
  else
    let* text := open_read file in
    ret (RContent file text).

Definition write_file (file content : string) : M pyresult :=
  let* _ := open_write file content in
  ret (RStatus file).

(** [lines.insert(i, x)] for [0 <= i]. *)
Definition list_insert_at (i : nat) (x : string) (lines : list string)
  : list string :=
  take i lines ++ x :: drop i lines.

(** The body of the loop of [update_file] for one change. *)
Definition apply_change (change : Change) (lines : list string)
  : list string :=
  let action := change.(action) in
  let line := change.(line) in
  let content := default EmptyString change.(content) in
  if String.eqb action "replace" then
    if (0 <=? line) && (line <? Z.of_nat (length lines))
    then <[Z.to_nat line := content +:+ nl]> lines
    else lines
  else if String.eqb action "insert" then
    if (0 <=? line) && (line <=? Z.of_nat (length lines))
    then list_insert_at (Z.to_nat line) (content +:+ nl) lines
    else lines
  else if String.eqb action "delete" then
    if (0 <=? line) && (line <? Z.of_nat (length lines))
    then delete (Z.to_nat line) lines
    else lines
  else lines.

(** The loop of [update_file]: the changes in their order, each on the
    list the earlier ones left. *)
Fixpoint apply_changes (changes : list Change) (lines : list string)
  : list string :=
  match changes with
  | [] => lines
  | change :: rest => apply_changes rest (apply_change change lines)
  end.

Definition update_file (file : string) (changes : list Change) : M pyresult :=
  let* present := path_exists file in
  if negb present then ret (RError (file +:+ " does not exist"))
  else
    let* text := open_read file in
    let lines := readlines text in
    let lines := apply_changes changes lines in
    let* _ := open_write file (writelines lines) in
    ret (RStatusChanges file changes).

(** The loop of [get_website_state] over the remaining [files], with the
    dictionary [state] filled so far. *)
Fixpoint read_loop (files : list string) (state : gmap string string)
  : M (gmap string string) :=
  match files with
  | [] => ret state
  | file :: rest =>
      let* text := open_read file in
      read_loop rest (<[file := text]> state)
  end.

Definition get_website_state : M pyresult :=
  let* _ := ensure_files_exist in
  let* state := read_loop FILES ∅ in
  ret (RWebsite state).

(** ** Tools *)

(** [repr] of a string that holds no quote, backslash or control
    character, as every member of [FILES] is. *)
Definition repr_str (s : string) : string := "'" +:+ s +:+ "'".

Fixpoint join_with (sep : string) (items : list string) : string :=
  match items with
  | [] => EmptyString
  | [x] => x
  | x :: rest => x +:+ sep +:+ join_with sep rest
  end.

(** The list as an f-string prints it. *)
Definition repr_list (l : list string) : string :=
  "[" +:+ join_with ", " (repr_str <$> l) +:+ "]".

Definition invalid_file : string :=
  "Invalid file. Choose from: " +:+ repr_list FILES.

Definition ensure_website : M pyresult := ensure_files_exist.

Definition get_website : M pyresult := get_website_state.

Definition read_file_tool (file : string) : M pyresult :=
  if negb (bool_decide (file ∈ FILES)) then ret (RError invalid_file)
  else read_file file.

Definition write_file_tool (file content : string) : M pyresult :=
  if negb (bool_decide (file ∈ FILES)) then ret (RError invalid_file)
  else write_file file content.

Definition update_file_tool (file : string) (changes : list Change)
  : M pyresult :=
  if negb (bool_decide (file ∈ FILES)) then ret (RError invalid_file)
  else update_file file changes.

(** ** The patch engine in the words of the specification

    The specification describes the same engine on lines that do not
    carry their terminator: the content is split at every newline, the
    operations place bare contents, and the write-back follows every line
    with one newline.  These definitions follow that wording; they are
    compared with [readlines], [apply_changes] and [writelines] below. *)

Module Spec.

(** The lines of the text, each without its terminator. *)
Fixpoint split_lines (text : string) : list string :=
  match text with
  | EmptyString => []
  | String c rest =>
      if Ascii.eqb c LF then EmptyString :: split_lines rest
      else match split_lines rest with
           | [] => [String c EmptyString]
           | l :: ls => String c l :: ls
           end
  end.

(** Every line, the last included, followed by one newline. *)
Fixpoint join_lines (lines : list string) : string :=
  match lines with
  | [] => EmptyString
  | l :: ls => l +:+ nl +:+ join_lines ls
  end.

Definition apply_op (op : Change) (lines : list string) : list string :=
  let i := op.(line) in
  let text := default EmptyString op.(content) in
  if String.eqb op.(action) "replace" then
    if (0 <=? i) && (i <? Z.of_nat (length lines))
    then <[Z.to_nat i := text]> lines else lines
  else if String.eqb op.(action) "insert" then
    if (0 <=? i) && (i <=? Z.of_nat (length lines))
    then take (Z.to_nat i) lines ++ text :: drop (Z.to_nat i) lines
    else lines
  else if String.eqb op.(action) "delete" then
    if (0 <=? i) && (i <? Z.of_nat (length lines))
    then delete (Z.to_nat i) lines else lines
  else lines.

Definition apply_batch (ops : list Change) (lines : list string)
  : list string :=
  foldl (λ acc op, apply_op op acc) lines ops.

End Spec.

(** ** Auxiliary definitions *)

(** The content every name has once the loop of [ensure_files_exist] has
    run over [files] from the directory [m]. *)
Definition ensured (files : list string) (m : gmap string string)
    (f : string) : option string :=
  match m !! f with
  | Some c => Some c
  | None => if bool_decide (f ∈ files) then Some EmptyString else None
  end.

(** The three-line file of the specification's regression test, its batch
    and the text the batch must leave. *)
Definition abc : string := "a" +:+ nl +:+ "b" +:+ nl +:+ "c" +:+ nl.

Definition insert_then_replace : list Change :=
  [mkChange "insert" 1 (Some "X"); mkChange "replace" 1 (Some "Y")].

Definition aYbc : string :=
  "a" +:+ nl +:+ "Y" +:+ nl +:+ "b" +:+ nl +:+ "c" +:+ nl.

(** The one-character text holding a carriage return. *)
Definition cr_text : string := String CR EmptyString.

(** ** Process start and the served calls *)

(** The exception the module raises while it loads. *)
Inductive startup_error : Type :=
| ValueError (msg : string).

(** The truth value Python gives the result of [os.getenv]: [None] and the
    empty string are false. *)
Definition truthy (v : option string) : bool :=
  match v with
  | None => false
  | Some EmptyString => false
  | Some _ => true
  end.

(** The two checks at the top of the module, on the environment as
    [load_dotenv] left it; on success the values of the two variables. *)
Definition check_environment (environ : gmap string string)
  : startup_error + (string * string) :=
  let auth0_domain := environ !! "AUTH0_DOMAIN" in
  let resource_server_url := environ !! "RESOURCE_SERVER_URL" in
  if negb (truthy auth0_domain) then
    inl (ValueError "AUTH0_DOMAIN environment variable is required")
  else if negb (truthy resource_server_url) then
    inl (ValueError "RESOURCE_SERVER_URL environment variable is required")
  else inr (default EmptyString auth0_domain,
            default EmptyString resource_server_url).

(** One call of a registered tool, with its arguments. *)
Inductive tool_call : Type :=
| EnsureWebsite
| GetWebsite
| ReadFileTool (file : string)
| WriteFileTool (file content : string)
| UpdateFileTool (file : string) (changes : list Change).

Definition call_tool (c : tool_call) : M pyresult :=
  match c with
  | EnsureWebsite => ensure_website
  | GetWebsite => get_website
  | ReadFileTool file => read_file_tool file
  | WriteFileTool file content => write_file_tool file content
  | UpdateFileTool file changes => update_file_tool file changes
  end.



(** ** Predicates on texts and states used in the statements *)

(** No newline occurs in the text. *)
Fixpoint no_lf (text : string) : bool :=
  match text with
  | EmptyString => true
  | String c rest => negb (Ascii.eqb c LF) && no_lf rest
  end.

(** The text is one line with its terminator: a newline at the end and
    nowhere else. *)
Fixpoint one_line (text : string) : bool :=
  match text with
  | EmptyString => false
  | String c EmptyString => Ascii.eqb c LF
  | String c rest => negb (Ascii.eqb c LF) && one_line rest
  end.

(** The content of a change holds neither a newline nor a carriage
    return. *)
Definition plain_content (change : Change) : bool :=
  no_lf (default EmptyString change.(content))
  && no_cr (default EmptyString change.(content)).


(** ** Facts about text-mode input and output *)

Section text_facts.

Lemma append_nil_r (s : string) : s +:+ EmptyString = s.
Proof. induction s as [|c s IH]; simpl; [done | by f_equal]. Qed.

Lemma append_assoc (a b c : string) : (a +:+ b) +:+ c = a +:+ b +:+ c.
Proof. induction a as [|x a IH]; simpl; [done | by f_equal]. Qed.

(** Reading lines and writing them back gives the text that was read. *)
Lemma writelines_readlines (text : string) :
  writelines (readlines text) = text.
Proof.
  induction text as [|c rest IH]; simpl; [done |].
  destruct (Ascii.eqb c LF) eqn:Hc.
  - simpl. by rewrite IH.
  - destruct (readlines rest) as [|l ls] eqn:Hr; simpl in *.
    + by rewrite <- IH.
    + by rewrite IH.
Qed.

(** A text without carriage returns is read as it is stored. *)
Lemma universal_newlines_no_cr (raw : string) :
  no_cr raw = true → universal_newlines raw = raw.
Proof.
  induction raw as [|c rest IH]; simpl; [done |].
  intros [Hc Hrest]%andb_true_iff.
  apply negb_true_iff in Hc. rewrite Hc. by rewrite IH.
Qed.

Lemma readlines_nil (text : string) : readlines text = [] → text = EmptyString.
Proof.
  intros H. rewrite <- (writelines_readlines text). by rewrite H.
Qed.

Lemma ends_with_nl_append (a b : string) :
  ends_with_nl b = true → ends_with_nl (a +:+ b) = true.
Proof.
  intros Hb. induction a as [|c a IH]; simpl; [done |].
  destruct (a +:+ b) eqn:Hab; [| done].
  destruct a; simpl in Hab; [| done]. subst b. done.
Qed.

Lemma ends_with_nl_nl (a : string) : ends_with_nl (a +:+ nl) = true.
Proof. by apply ends_with_nl_append. Qed.

Lemma join_lines_ends_with_nl (lines : list string) :
  lines ≠ [] → ends_with_nl (Spec.join_lines lines) = true.
Proof.
  induction lines as [|l ls IH]; [done |]. intros _. simpl.
  destruct ls as [|l' ls'].
  - simpl. apply ends_with_nl_nl.
  - apply ends_with_nl_append. change (ends_with_nl (nl +:+ Spec.join_lines (l' :: ls')) = true).
    apply ends_with_nl_append. by apply IH.
Qed.

(** On a text that is empty or ends with a newline, the lines the code
    holds are the lines of the specification, each with its newline. *)
Lemma readlines_split_lines (text : string) :
  terminated text = true →
  readlines text = (λ l, l +:+ nl) <$> Spec.split_lines text.
Proof.
  induction text as [|c rest IH]; [done |].
  intros Ht. simpl.
  destruct (Ascii.eqb c LF) eqn:Hc.
  - apply Ascii.eqb_eq in Hc as ->.
    rewrite IH; [done |]. destruct rest; [done |]. exact Ht.
  - destruct rest as [|c' rest'].
    + simpl in Ht. congruence.
    + rewrite IH by exact Ht.
      assert (Spec.split_lines (String c' rest') ≠ []) as Hne.
      { simpl. destruct (Ascii.eqb c' LF); [done |].
        by destruct (Spec.split_lines rest'). }
      destruct (Spec.split_lines (String c' rest')); [done |]. done.
Qed.

Lemma writelines_join_lines (lines : list string) :
  writelines ((λ l, l +:+ nl) <$> lines) = Spec.join_lines lines.
Proof.
  induction lines as [|l ls IH]; [done |].
  rewrite fmap_cons. cbn [writelines Spec.join_lines].
  by rewrite IH, append_assoc.
Qed.

End text_facts.

(** ** Facts about the loop of [update_file] *)

Section line_ops.

Implicit Types (change : Change) (changes : list Change).
Implicit Types (lines : list string).

Lemma apply_changes_app changes1 changes2 lines :
  apply_changes (changes1 ++ changes2) lines
  = apply_changes changes2 (apply_changes changes1 lines).
Proof.
  revert lines. induction changes1 as [|c cs IH]; intros lines; [done |].
  simpl. apply IH.
Qed.

Lemma apply_change_unknown change lines :
  change.(action) ≠ "replace" →
  change.(action) ≠ "insert" →
  change.(action) ≠ "delete" →
  apply_change change lines = lines.
Proof.
  intros Hr Hi Hd. unfold apply_change.
  apply String.eqb_neq in Hr, Hi, Hd. by rewrite Hr, Hi, Hd.
Qed.

Lemma apply_change_negative change lines :
  change.(line) < 0 → apply_change change lines = lines.
Proof.
  intros Hneg. unfold apply_change.
  assert ((0 <=? change.(line)) = false) as -> by lia.
  simpl. by repeat case_match.
Qed.

Lemma apply_change_beyond change lines :
  Z.of_nat (length lines) < change.(line) →
  apply_change change lines = lines.
Proof.
  intros Hbig. unfold apply_change.
  assert ((change.(line) <? Z.of_nat (length lines)) = false) as -> by lia.
  assert ((change.(line) <=? Z.of_nat (length lines)) = false) as -> by lia.
  rewrite !andb_false_r. by repeat case_match.
Qed.

Lemma apply_change_at_length change lines :
  change.(action) ≠ "insert" →
  Z.of_nat (length lines) ≤ change.(line) →
  apply_change change lines = lines.
Proof.
  intros Hi Hbig. unfold apply_change.
  apply String.eqb_neq in Hi. rewrite Hi.
  assert ((change.(line) <? Z.of_nat (length lines)) = false) as -> by lia.
  rewrite !andb_false_r. by repeat case_match.
Qed.

(** One change on terminated lines is the operation of the
    specification on the bare lines. *)
Lemma apply_change_fmap change (bare : list string) :
  apply_change change ((λ l, l +:+ nl) <$> bare)
  = (λ l, l +:+ nl) <$> Spec.apply_op change bare.
Proof.
  unfold apply_change, Spec.apply_op, list_insert_at.
  rewrite length_fmap.
  repeat case_match; try done.
  - by rewrite list_fmap_insert.
  - by rewrite fmap_app, fmap_cons, fmap_take, fmap_drop.
  - by rewrite list_fmap_delete.
Qed.

Lemma apply_changes_fmap changes (bare : list string) :
  apply_changes changes ((λ l, l +:+ nl) <$> bare)
  = (λ l, l +:+ nl) <$> Spec.apply_batch changes bare.
Proof.
  revert bare. induction changes as [|c cs IH]; intros bare; [done |].
  simpl. rewrite apply_change_fmap. apply IH.
Qed.

End line_ops.

(** ** Facts about the operations on the directory *)

Section store_facts.

Implicit Types (m : gmap string string) (s : fs).
Implicit Types (file : string) (changes : list Change).

Lemma present_true s file raw :
  stored file s = Some raw → bool_decide (is_Some (stored file s)) = true.
Proof. intros ->. by apply bool_decide_eq_true_2. Qed.

Lemma present_false s file :
  stored file s = None → bool_decide (is_Some (stored file s)) = false.
Proof. intros ->. apply bool_decide_eq_false_2. by intros [? ?]. Qed.

Lemma update_file_present m file raw changes :
  m !! file = Some raw →
  update_file file changes (Some m)
  = (inr (RStatusChanges file changes),
     Some (<[file :=
             writelines
               (apply_changes changes (readlines (universal_newlines raw)))]>
           m)).
Proof.
  intros Hraw. unfold update_file, bind, path_exists, open_read, open_write.
  rewrite (present_true (Some m) file raw Hraw). simpl. by rewrite Hraw.
Qed.

Lemma update_file_absent s file changes :
  stored file s = None →
  update_file file changes s
  = (inr (RError (file +:+ " does not exist")), s).
Proof.
  intros Hnone. unfold update_file, bind, path_exists.
  by rewrite (present_false s file Hnone).
Qed.

Lemma read_file_present s file raw :
  stored file s = Some raw →
  read_file file s = (inr (RContent file (universal_newlines raw)), s).
Proof.
  intros Hraw. unfold read_file, bind, path_exists, open_read.
  rewrite (present_true s file raw Hraw). simpl. by rewrite Hraw.
Qed.

Lemma read_file_absent s file :
  stored file s = None →
  read_file file s = (inr (RError (file +:+ " does not exist")), s).
Proof.
  intros Hnone. unfold read_file, bind, path_exists.
  by rewrite (present_false s file Hnone).
Qed.

Lemma write_file_present m file text :
  write_file file text (Some m) = (inr (RStatus file), Some (<[file := text]> m)).
Proof. done. Qed.

Lemma write_file_no_dir file text :
  write_file file text None = (inl (FileNotFoundError file), None).
Proof. done. Qed.

Lemma invalid_file_literal :
  invalid_file
  = "Invalid file. Choose from: ['index.html', 'styles.css', 'script.js']".
Proof. reflexivity. Qed.

Lemma FILES_NoDup : NoDup FILES.
Proof. apply (bool_decide_unpack _). by vm_compute. Qed.

End store_facts.

(** ** Facts about the loops of [ensure_files_exist] and [get_website_state] *)

Section loops.

Implicit Types (m : gmap string string) (s : fs).
Implicit Types (file : string) (files created : list string).

Lemma filter_ext_elem_of (P Q : string → Prop)
    `{!∀ x, Decision (P x), !∀ x, Decision (Q x)} files :
  (∀ f, f ∈ files → P f ↔ Q f) → filter P files = filter Q files.
Proof.
  induction files as [|f rest IH]; intros Hext; [done |].
  rewrite !filter_cons.
  rewrite IH by (intros g Hg; apply Hext; by right).
  destruct (decide (P f)) as [Hp|Hp], (decide (Q f)) as [Hq|Hq];
    try done; exfalso; apply (Hext f) in Hp || apply (Hext f) in Hq;
    try done; by left.
Qed.

Lemma filter_none (P : string → Prop) `{!∀ x, Decision (P x)} files :
  (∀ f, f ∈ files → ¬ P f) → filter P files = [].
Proof.
  induction files as [|f rest IH]; intros Hno; [done |].
  rewrite filter_cons_False by (apply Hno; by left).
  apply IH. intros g Hg. apply Hno. by right.
Qed.

Lemma ensure_loop_spec files :
  NoDup files →
  ∀ created m, ∃ m',
    ensure_loop files created (Some m)
    = (inr (created ++ filter (λ f, m !! f = None) files), Some m')
    ∧ ∀ f, m' !! f = ensured files m f.
Proof.
  induction 1 as [|file rest Hnotin Hnd IH]; intros created m.
  - exists m. split; [by rewrite app_nil_r |].
    intros f. unfold ensured. by destruct (m !! f).
  - cbn [ensure_loop]. unfold bind at 1. unfold path_exists at 1.
    destruct (m !! file) as [c|] eqn:Hfile.
    + rewrite (present_true (Some m) file c Hfile). cbn [negb].
      destruct (IH created m) as (m' & Heq & Hlk).
      exists m'. split.
      * rewrite Heq, filter_cons_False; [done |]. by rewrite Hfile.
      * intros f. rewrite Hlk. unfold ensured.
        destruct (m !! f) eqn:Hf; [done |].
        assert (f ≠ file) as Hne by congruence.
        rewrite (bool_decide_ext (f ∈ file :: rest) (f ∈ rest)); [done |].
        rewrite elem_of_cons.
        split; [intros [Heq'|Hin]; [by destruct Hne | exact Hin] | by right].
    + rewrite (present_false (Some m) file Hfile). cbn [negb].
      unfold bind at 1. unfold open_write at 1. unfold linesep_out.
      destruct (IH (created ++ [file]) (<[file := EmptyString]> m))
        as (m' & Heq & Hlk).
      exists m'. split.
      * rewrite Heq, filter_cons_True by done.
        rewrite <- app_assoc. simpl. do 4 f_equal.
        apply filter_ext_elem_of. intros g Hg.
        rewrite lookup_insert_ne; [done |]. by intros ->.
      * intros f. rewrite Hlk. unfold ensured.
        destruct (decide (f = file)) as [->|Hne].
        -- rewrite lookup_insert_eq, Hfile.
           rewrite bool_decide_eq_true_2; [done | by left].
        -- rewrite lookup_insert_ne by done.
           destruct (m !! f); [done |].
           rewrite (bool_decide_ext (f ∈ file :: rest) (f ∈ rest)); [done |].
           rewrite elem_of_cons.
        split; [intros [Heq'|Hin]; [by destruct Hne | exact Hin] | by right].
Qed.

(** What [ensure_files_exist] returns and leaves, from any state. *)
Lemma ensure_files_exist_spec s :
  ∃ m', ensure_files_exist s
        = (inr (RCreated (filter (λ f, stored f s = None) FILES)), Some m')
        ∧ ∀ f, m' !! f = match stored f s with
                         | Some c => Some c
                         | None => if bool_decide (f ∈ FILES)
                                   then Some EmptyString else None
                         end.
Proof.
  unfold ensure_files_exist, bind, dir_exists.
  destruct s as [m|].
  - rewrite bool_decide_eq_true_2 by eauto. cbn [negb ret].
    destruct (ensure_loop_spec FILES FILES_NoDup [] m) as (m' & Heq & Hlk).
    exists m'. rewrite Heq. split; [done |]. apply Hlk.
  - rewrite bool_decide_eq_false_2 by (by intros [? ?]). cbn [negb makedirs].
    destruct (ensure_loop_spec FILES FILES_NoDup [] ∅) as (m' & Heq & Hlk).
    exists m'. rewrite Heq. split.
    + do 3 f_equal;
        try (apply filter_ext_elem_of; intros f _; by rewrite lookup_empty).
    + intros f. rewrite Hlk. unfold ensured. by rewrite lookup_empty.
Qed.

Lemma read_loop_spec files :
  ∀ (state : gmap string string) m,
    (∀ f, f ∈ files → is_Some (m !! f)) →
    ∃ w, read_loop files state (Some m) = (inr w, Some m)
         ∧ ∀ f, w !! f = if bool_decide (f ∈ files)
                         then universal_newlines <$> m !! f
                         else state !! f.
Proof.
  induction files as [|file rest IH]; intros state m Hall.
  - exists state. split; [done |]. intros f.
    rewrite bool_decide_eq_false_2; [done | by apply not_elem_of_nil].
  - destruct (Hall file) as [raw Hraw]; [by left |].
    cbn [read_loop]. unfold bind at 1. unfold open_read at 1.
    cbn [stored]. rewrite Hraw.
    destruct (IH (<[file := universal_newlines raw]> state) m)
      as (w & Heq & Hlk); [intros g Hg; apply Hall; by right |].
    exists w. split; [done |]. intros f. rewrite Hlk.
    destruct (decide (f ∈ rest)) as [Hin|Hnin].
    + rewrite !bool_decide_eq_true_2; [done | by right | done].
    + rewrite (bool_decide_eq_false_2 (f ∈ rest)) by done.
      destruct (decide (f = file)) as [->|Hne].
      * rewrite lookup_insert_eq, Hraw.
        rewrite bool_decide_eq_true_2; [done | by left].
      * rewrite lookup_insert_ne by done.
        rewrite bool_decide_eq_false_2; [done |].
        by intros [?|?]%elem_of_cons.
Qed.

End loops.

(** ** Properties of the patch engine *)

(** C1.  On an existing file [update_file] runs the batch front to back:
    whatever the batch is cut into, [prior ++ op :: later], the operation
    [op] is applied to the lines as all of [prior] left them and [later]
    to the lines [op] left, and the text written is made of the lines the
    last operation left.  On the file holding the lines a, b, c the batch
    insert X at 1, replace by Y at 1 writes the lines a, Y, b, c. *)
Theorem C1_operations_in_order
    (m : gmap string string) (file raw : string)
    (prior : list Change) (op : Change) (later : list Change) :
  m !! file = Some raw →
  update_file file (prior ++ op :: later) (Some m)
  = (inr (RStatusChanges file (prior ++ op :: later)),
     Some (<[file :=
             writelines
               (apply_changes later
                  (apply_change op
                     (apply_changes prior
                        (readlines (universal_newlines raw)))))]> m))
  ∧ (raw = abc →
     update_file file insert_then_replace (Some m)
     = (inr (RStatusChanges file insert_then_replace),
        Some (<[file := aYbc]> m))
     ∧ Spec.split_lines aYbc = ["a"; "Y"; "b"; "c"]).
Proof.
  intros Hraw. split.
  - rewrite (update_file_present m file raw _ Hraw).
    by rewrite apply_changes_app.
  - intros ->. split; [| reflexivity].
    by rewrite (update_file_present m file abc _ Hraw).
Qed.

Lemma C1_operations_in_order_witness :
  ({["index.html" := abc]} : gmap string string) !! "index.html" = Some abc
  ∧ update_file "index.html" insert_then_replace
      (Some {["index.html" := abc]})
    = (inr (RStatusChanges "index.html" insert_then_replace),
       Some (<["index.html" := aYbc]> {["index.html" := abc]})).
Proof.
  split; [reflexivity |].
  apply (C1_operations_in_order {["index.html" := abc]} "index.html" abc
           [] (mkChange "insert" 1 (Some "X"))
           [mkChange "replace" 1 (Some "Y")]);
    reflexivity.
Defined.

(** C2, as the code has it.  When the text read from an existing file is
    empty or ends with a newline, [update_file] is the engine of the
    specification: the text is split at the newlines into lines held
    without their terminator, the batch is applied to them, and the text
    written has every line, the last included, followed by one newline;
    so it ends with a newline whenever a line is left. *)
Theorem C2_terminated_file_join
    (m : gmap string string) (file raw : string) (changes : list Change) :
  m !! file = Some raw →
  terminated (universal_newlines raw) = true →
  update_file file changes (Some m)
  = (inr (RStatusChanges file changes),
     Some (<[file :=
             Spec.join_lines
               (Spec.apply_batch changes
                  (Spec.split_lines (universal_newlines raw)))]> m))
  ∧ (Spec.apply_batch changes (Spec.split_lines (universal_newlines raw))
     ≠ [] →
     ends_with_nl
       (Spec.join_lines
          (Spec.apply_batch changes
             (Spec.split_lines (universal_newlines raw)))) = true).
Proof.
  intros Hraw Hterm. split.
  - rewrite (update_file_present m file raw _ Hraw).
    rewrite (readlines_split_lines _ Hterm), apply_changes_fmap.
    by rewrite writelines_join_lines.
  - apply join_lines_ends_with_nl.
Qed.

Lemma C2_terminated_file_join_witness :
  ({["index.html" := abc]} : gmap string string) !! "index.html" = Some abc
  ∧ terminated (universal_newlines abc) = true
  ∧ update_file "index.html" insert_then_replace
      (Some {["index.html" := abc]})
    = (inr (RStatusChanges "index.html" insert_then_replace),
       Some (<["index.html" :=
               Spec.join_lines
                 (Spec.apply_batch insert_then_replace
                    (Spec.split_lines (universal_newlines abc)))]>
             {["index.html" := abc]})).
Proof.
  split; [reflexivity |]. split; [reflexivity |].
  apply (C2_terminated_file_join {["index.html" := abc]} "index.html" abc
           insert_then_replace); reflexivity.
Defined.

(** C2 fails as stated: a file holding the single line a without a
    newline, patched with the empty batch, is written back as it was; a
    line is left and the text does not end with a newline, nor is it the
    join of the specification. *)
Lemma C2_counterexample_unterminated_last_line :
  update_file "index.html" [] (Some {["index.html" := "a"]})
  = (inr (RStatusChanges "index.html" []), Some {["index.html" := "a"]})
  ∧ apply_changes [] (readlines (universal_newlines "a")) = ["a"]
  ∧ ends_with_nl "a" = false
  ∧ Spec.join_lines (Spec.apply_batch [] (Spec.split_lines "a")) ≠ "a".
Proof.
  split; [by vm_compute |]. split; [reflexivity |]. split; [reflexivity |].
  by vm_compute.
Qed.

(** ** Properties of the project store *)

(** C3.  From every state [ensure_files_exist] returns, creating exactly
    the valid names that were missing, all three on a project that has
    none of them; a file that exists keeps its content; and a second call
    right after the first creates nothing, returns the empty list and
    leaves the state as the first call left it. *)
Theorem C3_ensure_idempotent (s : fs) :
  ∃ (created : list string) (s1 : fs),
    ensure_files_exist s = (inr (RCreated created), s1)
    ∧ created = filter (λ f, stored f s = None) FILES
    ∧ ((∀ f, f ∈ FILES → stored f s = None) → created = FILES)
    ∧ (∀ f c, stored f s = Some c → stored f s1 = Some c)
    ∧ ensure_files_exist s1 = (inr (RCreated []), s1).
Proof.
  destruct (ensure_files_exist_spec s) as (m1 & Heq & Hlk).
  exists (filter (λ f, stored f s = None) FILES), (Some m1).
  split; [exact Heq |]. split; [done |]. split; [| split].
  - intros Hfresh. unfold FILES in *.
    rewrite !filter_cons_True; [done | ..]; apply Hfresh; repeat constructor.
  - intros f c Hc. cbn [stored]. by rewrite Hlk, Hc.
  - destruct (ensure_files_exist_spec (Some m1)) as (m2 & Heq2 & Hlk2).
    rewrite Heq2. f_equal.
    + do 2 f_equal. apply filter_none. intros f Hf. cbn [stored].
      rewrite Hlk. destruct (stored f s); [done |].
      by rewrite bool_decide_eq_true_2.
    + f_equal. apply map_eq. intros f. rewrite Hlk2. cbn [stored].
      destruct (m1 !! f) eqn:Hf; [done |].
      destruct (decide (f ∈ FILES)) as [Hin|Hnin].
      * exfalso. rewrite Hlk in Hf. destruct (stored f s); [done |].
        by rewrite bool_decide_eq_true_2 in Hf.
      * by rewrite bool_decide_eq_false_2.
Qed.

(** C7.  From every state, the absent directory included,
    [get_website_state] returns: it leaves the state [ensure_files_exist]
    leaves and yields a dictionary whose keys are the three valid names,
    each with the text of its file, which is empty for a file that was
    missing.  On a project on which nothing was written every name is
    mapped to the empty text. *)
Theorem C7_snapshot_after_ensure (s : fs) :
  ∃ (w : gmap string string) (s1 : fs),
    get_website_state s = (inr (RWebsite w), s1)
    ∧ s1 = (ensure_files_exist s).2
    ∧ dom w = list_to_set FILES
    ∧ (∀ f, f ∈ FILES →
            w !! f
            = Some (universal_newlines (default EmptyString (stored f s))))
    ∧ ((∀ f, f ∈ FILES →
             stored f s = None ∨ stored f s = Some EmptyString) →
       w = {[ "index.html" := EmptyString;
              "styles.css" := EmptyString;
              "script.js" := EmptyString ]}).
Proof.
  unfold get_website_state, bind.
  destruct (ensure_files_exist_spec s) as (m1 & Heq & Hlk). rewrite Heq.
  assert (∀ f, f ∈ FILES →
               m1 !! f = Some (default EmptyString (stored f s))) as Hm1.
  { intros f Hf. rewrite Hlk. destruct (stored f s); [done |].
    by rewrite bool_decide_eq_true_2. }
  destruct (read_loop_spec FILES ∅ m1) as (w & Hw & Hwl).
  { intros f Hf. rewrite (Hm1 f Hf). eauto. }
  rewrite Hw. exists w, (Some m1).
  assert (∀ f, f ∈ FILES →
               w !! f
               = Some (universal_newlines (default EmptyString (stored f s))))
    as Hin.
  { intros f Hf. rewrite Hwl, bool_decide_eq_true_2 by done.
    by rewrite (Hm1 f Hf). }
  assert (∀ f, f ∉ FILES → w !! f = None) as Hout.
  { intros f Hf. rewrite Hwl, bool_decide_eq_false_2 by done.
    apply lookup_empty. }
  split; [done |]. split; [done |]. split; [| split; [exact Hin |]].
  - apply set_eq. intros f. rewrite elem_of_dom, elem_of_list_to_set.
    split.
    + intros [c Hc]. destruct (decide (f ∈ FILES)) as [|Hnin]; [done |].
      rewrite (Hout f Hnin) in Hc. done.
    + intros Hf. rewrite (Hin f Hf). eauto.
  - intros Hfresh. apply map_eq. intros f.
    destruct (decide (f ∈ FILES)) as [Hf|Hf].
    + rewrite (Hin f Hf).
      assert (default EmptyString (stored f s) = EmptyString) as ->.
      { by destruct (Hfresh f Hf) as [-> | ->]. }
      unfold FILES in Hf.
      repeat (apply elem_of_cons in Hf as [-> | Hf]; [reflexivity |]).
      by apply elem_of_nil in Hf.
    + rewrite (Hout f Hf). symmetry.
      unfold FILES in Hf.
      rewrite !lookup_insert_ne, lookup_singleton_ne; [done | ..];
        intros <-; apply Hf; repeat constructor.
Qed.

(** C4, as the code has it.  For a valid name and a content without
    carriage returns, [write_file_tool] stores the content as given
    whenever the project directory exists, and whenever it returns, a
    [read_file_tool] right after it returns that very content and
    changes nothing. *)
Theorem C4_write_read_round_trip (s : fs) (file content : string) :
  file ∈ FILES →
  no_cr content = true →
  (∀ m, s = Some m →
        write_file_tool file content s
        = (inr (RStatus file), Some (<[file := content]> m)))
  ∧ (∀ r s1, write_file_tool file content s = (inr r, s1) →
             read_file_tool file s1 = (inr (RContent file content), s1)).
Proof.
  intros Hin Hcr. unfold write_file_tool, read_file_tool.
  rewrite bool_decide_eq_true_2 by done. cbn [negb]. split.
  - by intros m ->.
  - intros r s1 Hw. destruct s as [m|]; [| done].
    rewrite write_file_present in Hw. injection Hw as <- <-.
    rewrite (read_file_present _ file content).
    + by rewrite (universal_newlines_no_cr _ Hcr).
    + cbn [stored]. apply lookup_insert_eq.
Qed.

Lemma C4_write_read_round_trip_witness :
  "index.html" ∈ FILES
  ∧ no_cr "<h1>Hi</h1>" = true
  ∧ read_file_tool "index.html" (Some (<["index.html" := "<h1>Hi</h1>"]> ∅))
    = (inr (RContent "index.html" "<h1>Hi</h1>"),
       Some (<["index.html" := "<h1>Hi</h1>"]> ∅)).
Proof.
  assert ("index.html" ∈ FILES) as Hin by apply list_elem_of_here.
  split; [exact Hin |]. split; [reflexivity |].
  destruct (C4_write_read_round_trip (Some ∅) "index.html" "<h1>Hi</h1>"
              Hin eq_refl) as [Hwrite Hread].
  exact (Hread _ _ (Hwrite ∅ eq_refl)).
Defined.

(** C4 fails as stated: the content made of one carriage return is
    stored as given and read back as one newline. *)
Lemma C4_counterexample_carriage_return :
  write_file_tool "index.html" cr_text (Some ∅)
  = (inr (RStatus "index.html"), Some {["index.html" := cr_text]})
  ∧ read_file_tool "index.html" (Some {["index.html" := cr_text]})
    = (inr (RContent "index.html" nl), Some {["index.html" := cr_text]})
  ∧ nl ≠ cr_text.
Proof. split; [by vm_compute |]. split; by vm_compute. Qed.

(** C6.  For a name outside the three valid ones the three tools return
    the error record that spells the list of valid names; they raise
    nothing and leave the state as it was. *)
Theorem C6_invalid_name_soft_error
    (s : fs) (file content : string) (changes : list Change) :
  file ∉ FILES →
  read_file_tool file s
  = (inr (RError
       "Invalid file. Choose from: ['index.html', 'styles.css', 'script.js']"),
     s)
  ∧ write_file_tool file content s
    = (inr (RError
         "Invalid file. Choose from: ['index.html', 'styles.css', 'script.js']"),
       s)
  ∧ update_file_tool file changes s
    = (inr (RError
         "Invalid file. Choose from: ['index.html', 'styles.css', 'script.js']"),
       s).
Proof.
  intros Hnot. unfold read_file_tool, write_file_tool, update_file_tool.
  rewrite bool_decide_eq_false_2 by done. cbn [negb].
  by rewrite invalid_file_literal.
Qed.

Lemma C6_invalid_name_soft_error_witness :
  ("nope.txt" ∉ FILES)
  ∧ read_file_tool "nope.txt" None
    = (inr (RError
         "Invalid file. Choose from: ['index.html', 'styles.css', 'script.js']"),
       None).
Proof.
  assert ("nope.txt" ∉ FILES) as Hnot.
  { apply (bool_decide_unpack _). vm_compute. exact I. }
  split; [exact Hnot |].
  exact (proj1 (C6_invalid_name_soft_error None "nope.txt" EmptyString []
                  Hnot)).
Defined.

(** C8.  For a valid name, [update_file_tool] on a file that does not
    exist returns the record saying so and leaves the state as it was;
    on a file that exists it returns the ok record with the name and the
    batch it was given. *)
Theorem C8_patch_result (s : fs) (file : string) (changes : list Change) :
  file ∈ FILES →
  (stored file s = None →
   update_file_tool file changes s
   = (inr (RError (file +:+ " does not exist")), s))
  ∧ (∀ raw, stored file s = Some raw →
            ∃ s1, update_file_tool file changes s
                  = (inr (RStatusChanges file changes), s1)).
Proof.
  intros Hin. unfold update_file_tool.
  rewrite bool_decide_eq_true_2 by done. cbn [negb]. split.
  - apply update_file_absent.
  - intros raw Hraw. destruct s as [m|]; [| done]. cbn [stored] in Hraw.
    rewrite (update_file_present m file raw changes Hraw). eauto.
Qed.

Lemma C8_patch_result_witness :
  "styles.css" ∈ FILES
  ∧ update_file_tool "styles.css" insert_then_replace (Some ∅)
    = (inr (RError "styles.css does not exist"), Some ∅).
Proof.
  assert ("styles.css" ∈ FILES) as Hin.
  { apply list_elem_of_further, list_elem_of_here. }
  split; [exact Hin |].
  exact (proj1 (C8_patch_result (Some ∅) "styles.css" insert_then_replace
                  Hin) eq_refl).
Defined.

(** C9.  Writing or patching one file leaves the stored content of every
    other name as it was, through the tools and through the functions
    under them. *)
Theorem C9_frame
    (s : fs) (file other content : string) (changes : list Change) :
  other ≠ file →
  stored other (write_file_tool file content s).2 = stored other s
  ∧ stored other (update_file_tool file changes s).2 = stored other s
  ∧ stored other (write_file file content s).2 = stored other s
  ∧ stored other (update_file file changes s).2 = stored other s.
Proof.
  intros Hne.
  assert (stored other (write_file file content s).2 = stored other s) as Hw.
  { destruct s as [m|]; [| done]. rewrite write_file_present.
    cbn [snd stored]. by apply lookup_insert_ne. }
  assert (stored other (update_file file changes s).2 = stored other s) as Hu.
  { destruct (stored file s) as [raw|] eqn:Hraw.
    - destruct s as [m|]; [| done]. cbn [stored] in Hraw.
      rewrite (update_file_present m file raw changes Hraw).
      cbn [snd stored]. by apply lookup_insert_ne.
    - by rewrite (update_file_absent s file changes Hraw). }
  unfold write_file_tool, update_file_tool.
  destruct (negb (bool_decide (file ∈ FILES))); done.
Qed.

Lemma C9_frame_witness :
  "styles.css" ≠ "index.html"
  ∧ stored "styles.css"
      (update_file_tool "index.html" insert_then_replace
         (Some {["index.html" := abc; "styles.css" := "p {}"]})).2
    = Some "p {}".
Proof.
  assert ("styles.css" ≠ "index.html") as Hne by discriminate.
  split; [exact Hne |].
  exact (proj1 (proj2 (C9_frame
                         (Some {["index.html" := abc; "styles.css" := "p {}"]})
                         "index.html" "styles.css" EmptyString
                         insert_then_replace Hne))).
Defined.

(** C5.  In a batch run on an existing file, an operation whose line
    number is negative, past the end of the lines as the earlier
    operations left them (at the end too, unless it inserts), or whose
    action is none of replace, insert and delete, leaves the lines as
    they are; [update_file] raises nothing, returns the ok record and
    writes what the later operations make of those lines, as if the
    operation were not in the batch. *)
Theorem C5_invalid_operation_skipped
    (m : gmap string string) (file raw : string)
    (prior : list Change) (op : Change) (later : list Change) :
  m !! file = Some raw →
  (op.(line) < 0
   ∨ Z.of_nat
       (length (apply_changes prior (readlines (universal_newlines raw))))
     < op.(line)
   ∨ (op.(action) ≠ "insert"
      ∧ Z.of_nat
          (length (apply_changes prior (readlines (universal_newlines raw))))
        ≤ op.(line))
   ∨ (op.(action) ≠ "replace"
      ∧ op.(action) ≠ "insert"
      ∧ op.(action) ≠ "delete")) →
  apply_change op (apply_changes prior (readlines (universal_newlines raw)))
  = apply_changes prior (readlines (universal_newlines raw))
  ∧ update_file file (prior ++ op :: later) (Some m)
    = (inr (RStatusChanges file (prior ++ op :: later)),
       Some (<[file :=
               writelines
                 (apply_changes later
                    (apply_changes prior
                       (readlines (universal_newlines raw))))]> m))
  ∧ (update_file file (prior ++ op :: later) (Some m)).2
    = (update_file file (prior ++ later) (Some m)).2.
Proof.
  intros Hraw Hskip.
  assert (apply_change op
            (apply_changes prior (readlines (universal_newlines raw)))
          = apply_changes prior (readlines (universal_newlines raw)))
    as Hsame.
  { destruct Hskip as [Hneg | [Hbig | [[Hins Hend] | (Hr & Hi & Hd)]]].
    - by apply apply_change_negative.
    - by apply apply_change_beyond.
    - by apply apply_change_at_length.
    - by apply apply_change_unknown. }
  split; [exact Hsame |].
  rewrite !(update_file_present m file raw _ Hraw).
  rewrite !apply_changes_app. cbn [apply_changes]. by rewrite Hsame.
Qed.

Lemma C5_invalid_operation_skipped_witness :
  ({["index.html" := abc]} : gmap string string) !! "index.html" = Some abc
  ∧ Z.of_nat (length (apply_changes [] (readlines (universal_newlines abc))))
    < 999
  ∧ update_file "index.html"
      [mkChange "delete" 999 None; mkChange "replace" 0 (Some "Z")]
      (Some {["index.html" := abc]})
    = (inr (RStatusChanges "index.html"
              [mkChange "delete" 999 None; mkChange "replace" 0 (Some "Z")]),
       Some (<["index.html" := "Z" +:+ nl +:+ "b" +:+ nl +:+ "c" +:+ nl]>
             {["index.html" := abc]})).
Proof.
  split; [reflexivity |]. split; [reflexivity |].
  apply (C5_invalid_operation_skipped {["index.html" := abc]} "index.html"
           abc [] (mkChange "delete" 999 None)
           [mkChange "replace" 0 (Some "Z")]);
    [reflexivity | right; left; reflexivity].
Defined.

(** C10, as the code has it.  On an existing file whose stored content
    holds no carriage return, [update_file] with the empty batch returns
    the ok record and leaves the state, the content of the file included,
    exactly as it was; so does [update_file_tool] for a valid name. *)
Theorem C10_empty_batch_identity
    (m : gmap string string) (file raw : string) :
  m !! file = Some raw →
  no_cr raw = true →
  update_file file [] (Some m) = (inr (RStatusChanges file []), Some m)
  ∧ (file ∈ FILES →
     update_file_tool file [] (Some m)
     = (inr (RStatusChanges file []), Some m)).
Proof.
  intros Hraw Hcr.
  assert (update_file file [] (Some m)
          = (inr (RStatusChanges file []), Some m)) as Hid.
  { rewrite (update_file_present m file raw [] Hraw). cbn [apply_changes].
    rewrite writelines_readlines, (universal_newlines_no_cr raw Hcr).
    by rewrite (insert_id m file raw Hraw). }
  split; [exact Hid |].
  intros Hin. unfold update_file_tool.
  by rewrite bool_decide_eq_true_2.
Qed.

Lemma C10_empty_batch_identity_witness :
  ({["index.html" := "<h1>Hi</h1>"]} : gmap string string) !! "index.html"
  = Some "<h1>Hi</h1>"
  ∧ no_cr "<h1>Hi</h1>" = true
  ∧ update_file "index.html" [] (Some {["index.html" := "<h1>Hi</h1>"]})
    = (inr (RStatusChanges "index.html" []),
       Some {["index.html" := "<h1>Hi</h1>"]}).
Proof.
  split; [reflexivity |]. split; [reflexivity |].
  refine (proj1 (C10_empty_batch_identity {["index.html" := "<h1>Hi</h1>"]}
                   "index.html" "<h1>Hi</h1>" _ _)); reflexivity.
Defined.

(** C10 fails as stated: a file holding one carriage return, patched
    with the empty batch, holds one newline afterwards. *)
Lemma C10_counterexample_carriage_return :
  update_file "index.html" [] (Some {["index.html" := cr_text]})
  = (inr (RStatusChanges "index.html" []), Some {["index.html" := nl]})
  ∧ nl ≠ cr_text.
Proof. split; by vm_compute. Qed.

(** ** Further facts about single operations *)

Section single_operations.

Implicit Types (lines : list string) (n : nat) (c : option string).

Lemma apply_change_replace_in lines n c :
  (n < length lines)%nat →
  apply_change (mkChange "replace" (Z.of_nat n) c) lines
  = <[n := default EmptyString c +:+ nl]> lines.
Proof.
  intros Hn. unfold apply_change. cbn [action line content String.eqb].
  assert ((0 <=? Z.of_nat n) && (Z.of_nat n <? Z.of_nat (length lines))
          = true) as -> by lia.
  by rewrite Nat2Z.id.
Qed.

Lemma apply_change_insert_in lines n c :
  (n ≤ length lines)%nat →
  apply_change (mkChange "insert" (Z.of_nat n) c) lines
  = take n lines ++ (default EmptyString c +:+ nl) :: drop n lines.
Proof.
  intros Hn. unfold apply_change, list_insert_at.
  assert ((0 <=? Z.of_nat n) && (Z.of_nat n <=? Z.of_nat (length lines))
          = true) as Hguard by lia.
  cbn. cbn in Hguard. rewrite Hguard. by rewrite Nat2Z.id.
Qed.

Lemma apply_change_delete_in lines n c :
  (n < length lines)%nat →
  apply_change (mkChange "delete" (Z.of_nat n) c) lines = delete n lines.
Proof.
  intros Hn. unfold apply_change.
  assert ((0 <=? Z.of_nat n) && (Z.of_nat n <? Z.of_nat (length lines))
          = true) as Hguard by lia.
  cbn. cbn in Hguard. rewrite Hguard. by rewrite Nat2Z.id.
Qed.

Lemma writelines_app (l k : list string) :
  writelines (l ++ k) = writelines l +:+ writelines k.
Proof.
  induction l as [|x l IH]; [done |].
  cbn [app writelines]. by rewrite IH, append_assoc.
Qed.

End single_operations.

(** ** How one operation moves the lines *)

(** X1.  A replace inside the range keeps the number of lines, puts the
    content with a newline at its index and leaves every other index as
    it was. *)
Theorem X1_replace_in_range
    (lines : list string) (n : nat) (c : option string) :
  (n < length lines)%nat →
  length (apply_change (mkChange "replace" (Z.of_nat n) c) lines)
  = length lines
  ∧ apply_change (mkChange "replace" (Z.of_nat n) c) lines !! n
    = Some (default EmptyString c +:+ nl)
  ∧ ∀ j : nat, j ≠ n →
      apply_change (mkChange "replace" (Z.of_nat n) c) lines !! j
      = lines !! j.
Proof.
  intros Hn. rewrite (apply_change_replace_in lines n c Hn).
  split; [apply length_insert |]. split.
  - by apply list_lookup_insert_eq.
  - intros j Hj. by apply list_lookup_insert_ne.
Qed.

Lemma X1_replace_in_range_witness :
  (1 < length (readlines abc))%nat
  ∧ apply_change (mkChange "replace" (Z.of_nat 1) (Some "Y")) (readlines abc)
    !! 1%nat
    = Some ("Y" +:+ nl).
Proof.
  assert (1 < length (readlines abc))%nat as Hn by (vm_compute; lia).
  split; [exact Hn |].
  exact (proj1 (proj2 (X1_replace_in_range (readlines abc) 1 (Some "Y") Hn))).
Defined.

(** X2.  An insert at an index up to the number of lines, that number
    included, adds one line: the content with a newline stands at the
    index, the lines before it keep their index and every line from the
    index on moves down by one. *)
Theorem X2_insert_in_range
    (lines : list string) (n : nat) (c : option string) :
  (n ≤ length lines)%nat →
  length (apply_change (mkChange "insert" (Z.of_nat n) c) lines)
  = S (length lines)
  ∧ apply_change (mkChange "insert" (Z.of_nat n) c) lines !! n
    = Some (default EmptyString c +:+ nl)
  ∧ (∀ j : nat, (j < n)%nat →
       apply_change (mkChange "insert" (Z.of_nat n) c) lines !! j
       = lines !! j)
  ∧ (∀ j : nat, (n ≤ j)%nat →
       apply_change (mkChange "insert" (Z.of_nat n) c) lines !! S j
       = lines !! j).
Proof.
  intros Hn. rewrite (apply_change_insert_in lines n c Hn).
  assert (length (take n lines) = n) as Htake by (rewrite length_take; lia).
  split; [| split; [| split]].
  - rewrite length_app, Htake. cbn [length]. rewrite length_drop. lia.
  - rewrite lookup_app_r by lia. by rewrite Htake, Nat.sub_diag.
  - intros j Hj. rewrite lookup_app_l by lia. by apply lookup_take_lt.
  - intros j Hj. rewrite lookup_app_r by lia. rewrite Htake.
    replace (S j - n)%nat with (S (j - n)) by lia.
    change (drop n lines !! (j - n)%nat = lines !! j).
    rewrite lookup_drop. f_equal. lia.
Qed.

Lemma X2_insert_in_range_witness :
  (3 ≤ length (readlines abc))%nat
  ∧ length (apply_change (mkChange "insert" (Z.of_nat 3) (Some "d"))
              (readlines abc))
    = 4%nat.
Proof.
  assert (3 ≤ length (readlines abc))%nat as Hn by (vm_compute; lia).
  split; [exact Hn |].
  exact (proj1 (X2_insert_in_range (readlines abc) 3 (Some "d") Hn)).
Defined.

(** X3.  A delete inside the range removes one line: the lines before
    the index keep their index and every line after it moves up by
    one. *)
Theorem X3_delete_in_range
    (lines : list string) (n : nat) (c : option string) :
  (n < length lines)%nat →
  S (length (apply_change (mkChange "delete" (Z.of_nat n) c) lines))
  = length lines
  ∧ (∀ j : nat, (j < n)%nat →
       apply_change (mkChange "delete" (Z.of_nat n) c) lines !! j
       = lines !! j)
  ∧ (∀ j : nat, (n ≤ j)%nat →
       apply_change (mkChange "delete" (Z.of_nat n) c) lines !! j
       = lines !! S j).
Proof.
  intros Hn. rewrite (apply_change_delete_in lines n c Hn).
  split; [| split].
  - rewrite length_delete by (by apply lookup_lt_is_Some). lia.
  - intros j Hj. by apply list_lookup_delete_lt.
  - intros j Hj. by apply list_lookup_delete_ge.
Qed.

Lemma X3_delete_in_range_witness :
  (0 < length (readlines abc))%nat
  ∧ apply_change (mkChange "delete" (Z.of_nat 0) None) (readlines abc)
    !! 0%nat
    = readlines abc !! 1%nat.
Proof.
  assert (0 < length (readlines abc))%nat as Hn by (vm_compute; lia).
  split; [exact Hn |].
  exact (proj2 (proj2 (X3_delete_in_range (readlines abc) 0 None Hn))
           0%nat (le_n 0)).
Defined.

(** X4.  An insert followed by a delete at the same index leaves the
    lines as they were, whatever the content. *)
Theorem X4_insert_then_delete
    (lines : list string) (n : nat) (c c' : option string) :
  (n ≤ length lines)%nat →
  apply_changes
    [mkChange "insert" (Z.of_nat n) c; mkChange "delete" (Z.of_nat n) c']
    lines
  = lines.
Proof.
  intros Hn. cbn [apply_changes].
  rewrite (apply_change_insert_in lines n c Hn).
  assert (length (take n lines) = n) as Htake by (rewrite length_take; lia).
  rewrite apply_change_delete_in.
  - rewrite <- Htake at 1. rewrite delete_middle. apply take_drop.
  - rewrite length_app, Htake. cbn [length]. lia.
Qed.

Lemma X4_insert_then_delete_witness :
  (1 ≤ length (readlines abc))%nat
  ∧ apply_changes
      [mkChange "insert" (Z.of_nat 1) (Some "X");
       mkChange "delete" (Z.of_nat 1) None]
      (readlines abc)
    = readlines abc.
Proof.
  assert (1 ≤ length (readlines abc))%nat as Hn by (vm_compute; lia).
  split; [exact Hn |].
  exact (X4_insert_then_delete (readlines abc) 1 (Some "X") None Hn).
Defined.

(** X5.  Inside the range, a delete followed by an insert at the same
    index does what one replace with the inserted content does, and of
    two replaces at the same index the second alone counts. *)
Theorem X5_replace_by_delete_insert
    (lines : list string) (n : nat) (c c' : option string) :
  (n < length lines)%nat →
  apply_changes
    [mkChange "delete" (Z.of_nat n) c'; mkChange "insert" (Z.of_nat n) c]
    lines
  = apply_change (mkChange "replace" (Z.of_nat n) c) lines
  ∧ apply_changes
      [mkChange "replace" (Z.of_nat n) c'; mkChange "replace" (Z.of_nat n) c]
      lines
    = apply_change (mkChange "replace" (Z.of_nat n) c) lines.
Proof.
  intros Hn. cbn [apply_changes].
  rewrite (apply_change_delete_in lines n c' Hn).
  rewrite !(apply_change_replace_in lines n _ Hn).
  assert (length (take n lines) = n) as Htake by (rewrite length_take; lia).
  split.
  - rewrite apply_change_insert_in.
    + rewrite delete_take_drop, insert_take_drop by done.
      rewrite take_app_length', drop_app_length' by done. done.
    + rewrite length_delete by (by apply lookup_lt_is_Some). lia.
  - rewrite apply_change_replace_in by (by rewrite length_insert).
    apply list_insert_insert_eq.
Qed.

Lemma X5_replace_by_delete_insert_witness :
  (1 < length (readlines abc))%nat
  ∧ apply_changes
      [mkChange "delete" (Z.of_nat 1) None;
       mkChange "insert" (Z.of_nat 1) (Some "Y")]
      (readlines abc)
    = apply_change (mkChange "replace" (Z.of_nat 1) (Some "Y"))
        (readlines abc).
Proof.
  assert (1 < length (readlines abc))%nat as Hn by (vm_compute; lia).
  split; [exact Hn |].
  exact (proj1 (X5_replace_by_delete_insert (readlines abc) 1 (Some "Y") None
                  Hn)).
Defined.

(** ** Further facts about texts and lines *)

Section more_text_facts.

Implicit Types (text raw : string) (lines : list string).

Lemma no_cr_universal_newlines raw : no_cr (universal_newlines raw) = true.
Proof.
  induction raw as [|c rest IH]; [done |].
  cbn [universal_newlines]. destruct (Ascii.eqb c CR) eqn:Hc.
  - destruct rest as [|c' rest']; [done |].
    destruct (Ascii.eqb c' LF) eqn:Hc'.
    + apply Ascii.eqb_eq in Hc' as ->. exact IH.
    + cbn [no_cr]. by rewrite IH.
  - cbn [no_cr]. by rewrite Hc, IH.
Qed.

Lemma universal_newlines_cons c raw :
  universal_newlines (String c raw)
  = if Ascii.eqb c CR then
      match raw with
      | String c' raw' =>
          if Ascii.eqb c' LF then String LF (universal_newlines raw')
          else String LF (universal_newlines raw)
      | EmptyString => String LF EmptyString
      end
    else String c (universal_newlines raw).
Proof. by destruct raw. Qed.

Lemma universal_newlines_idemp raw :
  universal_newlines (universal_newlines raw) = universal_newlines raw.
Proof. apply universal_newlines_no_cr, no_cr_universal_newlines. Qed.

Lemma ends_with_nl_nonempty text : ends_with_nl text = true → text ≠ EmptyString.
Proof. by destruct text. Qed.

Lemma ends_with_nl_cons c text :
  text ≠ EmptyString → ends_with_nl (String c text) = ends_with_nl text.
Proof. by destruct text. Qed.

Lemma universal_newlines_nonempty raw :
  raw ≠ EmptyString → universal_newlines raw ≠ EmptyString.
Proof.
  destruct raw as [|c rest]; [done |]. intros _.
  rewrite universal_newlines_cons. destruct (Ascii.eqb c CR); [| done].
  destruct rest as [|c' rest']; [done |]. by destruct (Ascii.eqb c' LF).
Qed.

Lemma ends_with_nl_universal_newlines raw :
  ends_with_nl raw = true → ends_with_nl (universal_newlines raw) = true.
Proof.
  induction raw as [|c rest IH]; [done |]. intros Hend.
  destruct rest as [|c' rest'].
  - cbn in Hend. apply Ascii.eqb_eq in Hend as ->. reflexivity.
  - rewrite ends_with_nl_cons in Hend by done. specialize (IH Hend).
    rewrite universal_newlines_cons. destruct (Ascii.eqb c CR).
    + destruct (Ascii.eqb c' LF) eqn:Hc'.
      * apply Ascii.eqb_eq in Hc' as ->. exact IH.
      * rewrite ends_with_nl_cons; [exact IH |].
        by apply universal_newlines_nonempty.
    + rewrite ends_with_nl_cons; [exact IH |].
      by apply universal_newlines_nonempty.
Qed.

Lemma terminated_universal_newlines raw :
  terminated raw = true → terminated (universal_newlines raw) = true.
Proof.
  destruct raw as [|c rest]; [done |]. intros Hterm.
  assert (ends_with_nl (universal_newlines (String c rest)) = true) as Hend
    by (by apply ends_with_nl_universal_newlines).
  by destruct (universal_newlines (String c rest)).
Qed.

Lemma ends_with_nl_terminated text :
  ends_with_nl text = true → terminated text = true.
Proof. by destruct text. Qed.

Lemma one_line_nonempty text : one_line text = true → text ≠ EmptyString.
Proof. by destruct text. Qed.

Lemma one_line_cons c text :
  text ≠ EmptyString →
  one_line (String c text) = negb (Ascii.eqb c LF) && one_line text.
Proof. by destruct text. Qed.

Lemma one_line_content text : no_lf text = true → one_line (text +:+ nl) = true.
Proof.
  induction text as [|c rest IH]; [done |]. cbn [no_lf].
  intros [Hc Hrest]%andb_true_iff.
  change (String c rest +:+ nl) with (String c (rest +:+ nl)).
  rewrite one_line_cons, Hc; [by apply IH |]. by destruct rest.
Qed.

Lemma readlines_nonempty text : text ≠ EmptyString → readlines text ≠ [].
Proof. intros Hne Hnil. by apply Hne, readlines_nil. Qed.

Lemma one_line_readlines text :
  terminated text = true →
  Forall (λ l, one_line l = true) (readlines text).
Proof.
  induction text as [|c rest IH]; [constructor |]. intros Hterm.
  cbn [readlines]. destruct (Ascii.eqb c LF) eqn:Hc.
  - apply Ascii.eqb_eq in Hc as ->. constructor; [done |].
    apply IH. destruct rest; [done |]. exact Hterm.
  - destruct rest as [|c' rest'].
    { cbn in Hterm. congruence. }
    specialize (IH Hterm).
    destruct (readlines (String c' rest')) as [|l ls] eqn:Hread.
    { by apply readlines_nonempty in Hread. }
    apply Forall_cons in IH as [Hl Hls]. constructor; [| exact Hls].
    rewrite one_line_cons by (by apply one_line_nonempty). by rewrite Hc.
Qed.

Lemma readlines_one_line_app (l text : string) :
  one_line l = true → readlines (l +:+ text) = l :: readlines text.
Proof.
  induction l as [|c rest IH]; [done |]. intros Hone.
  destruct rest as [|c' rest'].
  - cbn in Hone. apply Ascii.eqb_eq in Hone as ->. reflexivity.
  - rewrite one_line_cons in Hone by done.
    apply andb_true_iff in Hone as [Hc Hrest]. apply negb_true_iff in Hc.
    change (String c (String c' rest') +:+ text)
      with (String c (String c' rest' +:+ text)).
    cbn [readlines]. rewrite Hc. by rewrite (IH Hrest).
Qed.

(** Lines that each are one terminated line are read back as they were
    written. *)
Lemma readlines_writelines lines :
  Forall (λ l, one_line l = true) lines →
  readlines (writelines lines) = lines.
Proof.
  induction 1 as [|l ls Hl Hls IH]; [done |].
  cbn [writelines]. by rewrite (readlines_one_line_app l _ Hl), IH.
Qed.

Lemma no_cr_app (a b : string) : no_cr (a +:+ b) = no_cr a && no_cr b.
Proof.
  induction a as [|c a IH]; [done |].
  change (String c a +:+ b) with (String c (a +:+ b)).
  cbn [no_cr]. by rewrite IH, andb_assoc.
Qed.

Lemma no_cr_readlines text :
  no_cr text = true → Forall (λ l, no_cr l = true) (readlines text).
Proof.
  induction text as [|c rest IH]; [constructor |]. cbn [no_cr].
  intros [Hc Hrest]%andb_true_iff. specialize (IH Hrest).
  cbn [readlines]. destruct (Ascii.eqb c LF).
  - constructor; [| exact IH]. cbn [no_cr]. by rewrite Hc.
  - destruct (readlines rest) as [|l ls].
    + constructor; [| constructor]. cbn [no_cr]. by rewrite Hc.
    + apply Forall_cons in IH as [Hl Hls]. constructor; [| exact Hls].
      cbn [no_cr]. by rewrite Hc, Hl.
Qed.

Lemma no_cr_writelines lines :
  Forall (λ l, no_cr l = true) lines → no_cr (writelines lines) = true.
Proof.
  induction 1 as [|l ls Hl Hls IH]; [done |].
  cbn [writelines]. by rewrite no_cr_app, Hl, IH.
Qed.

(** A property of lines that the new line of every change has is kept by
    the loop. *)
Lemma apply_change_Forall (P : string → Prop) (change : Change) lines :
  P (default EmptyString change.(content) +:+ nl) →
  Forall P lines → Forall P (apply_change change lines).
Proof.
  intros Hnew Hall. unfold apply_change, list_insert_at.
  repeat case_match; try done.
  - by apply Forall_insert.
  - apply Forall_app. split; [by apply Forall_take |].
    constructor; [done | by apply Forall_drop].
  - by apply Forall_delete.
Qed.

Lemma apply_changes_Forall (P : string → Prop) (changes : list Change) lines :
  Forall (λ c, P (default EmptyString c.(content) +:+ nl)) changes →
  Forall P lines → Forall P (apply_changes changes lines).
Proof.
  intros Hchanges. revert lines.
  induction Hchanges as [|c cs Hc Hcs IH]; intros lines Hall; [done |].
  cbn [apply_changes]. by apply IH, apply_change_Forall.
Qed.

End more_text_facts.

Section patch_facts.

Implicit Types (text raw : string) (lines : list string).

Lemma readlines_one_line (l : string) : one_line l = true → readlines l = [l].
Proof.
  intros Hone. rewrite <- (append_nil_r l) at 1.
  by rewrite (readlines_one_line_app l EmptyString Hone).
Qed.

(** Text put after a last line that has no newline continues that
    line. *)
Lemma length_readlines_unterminated text (c : string) :
  terminated text = false →
  no_lf c = true →
  length (readlines (text +:+ c +:+ nl)) = length (readlines text).
Proof.
  intros Hterm Hc. induction text as [|x rest IH]; [done |].
  change (String x rest +:+ c +:+ nl) with (String x (rest +:+ c +:+ nl)).
  cbn [readlines]. destruct (Ascii.eqb x LF) eqn:Hx.
  - apply Ascii.eqb_eq in Hx as ->. cbn [length]. f_equal. apply IH.
    destruct rest; [done |]. exact Hterm.
  - destruct rest as [|x' rest'].
    + change (EmptyString +:+ c +:+ nl) with (c +:+ nl).
      by rewrite (readlines_one_line _ (one_line_content c Hc)).
    + assert (length (readlines (String x' rest' +:+ c +:+ nl))
              = length (readlines (String x' rest'))) as Hlen.
      { apply IH. exact Hterm. }
      destruct (readlines (String x' rest' +:+ c +:+ nl)) as [|l1 ls1],
               (readlines (String x' rest')) as [|l2 ls2];
        done.
Qed.

Lemma join_lines_terminated lines :
  terminated (Spec.join_lines lines) = true.
Proof.
  destruct lines as [|l ls]; [done |].
  apply ends_with_nl_terminated. by apply join_lines_ends_with_nl.
Qed.

End patch_facts.

(** ** How patches compose and what they keep *)

(** X6.  On a file read as empty or ending with a newline, a batch whose
    contents hold neither newline nor carriage return can be cut
    anywhere: patching with the first part and then, in a second call,
    with the rest leaves the state one call with the whole batch
    leaves. *)
Theorem X6_batch_split
    (m : gmap string string) (file raw : string)
    (changes1 changes2 : list Change) :
  m !! file = Some raw →
  terminated (universal_newlines raw) = true →
  Forall (λ c, plain_content c = true) changes1 →
  ∃ s1 : fs,
    update_file file changes1 (Some m)
    = (inr (RStatusChanges file changes1), s1)
    ∧ update_file file changes2 s1
      = (inr (RStatusChanges file changes2),
         (update_file file (changes1 ++ changes2) (Some m)).2).
Proof.
  intros Hraw Hterm Hplain.
  set (lines1 := apply_changes changes1 (readlines (universal_newlines raw))).
  exists (Some (<[file := writelines lines1]> m)).
  split; [by apply update_file_present |].
  assert (Forall (λ l, one_line l = true) lines1) as Hone.
  { apply apply_changes_Forall; [| by apply one_line_readlines].
    eapply Forall_impl; [exact Hplain |]. intros c Hc. cbn beta in Hc.
    apply one_line_content. unfold plain_content in Hc.
    by apply andb_true_iff in Hc as [? ?]. }
  assert (Forall (λ l, no_cr l = true) lines1) as Hcr.
  { apply apply_changes_Forall.
    - eapply Forall_impl; [exact Hplain |]. intros c Hc. cbn beta in Hc.
      unfold plain_content in Hc. apply andb_true_iff in Hc as [_ Hc].
      by rewrite no_cr_app, Hc.
    - apply no_cr_readlines, no_cr_universal_newlines. }
  rewrite (update_file_present _ file (writelines lines1) changes2)
    by apply lookup_insert_eq.
  rewrite (update_file_present m file raw (changes1 ++ changes2) Hraw).
  cbn [snd]. rewrite (universal_newlines_no_cr _ (no_cr_writelines _ Hcr)).
  rewrite (readlines_writelines _ Hone), insert_insert_eq.
  by rewrite apply_changes_app.
Qed.

Lemma X6_batch_split_witness :
  ({["index.html" := abc]} : gmap string string) !! "index.html" = Some abc
  ∧ terminated (universal_newlines abc) = true
  ∧ Forall (λ c, plain_content c = true) [mkChange "insert" 1 (Some "X")]
  ∧ ∃ s1 : fs,
      update_file "index.html" [mkChange "insert" 1 (Some "X")]
        (Some {["index.html" := abc]})
      = (inr (RStatusChanges "index.html" [mkChange "insert" 1 (Some "X")]),
         s1)
      ∧ update_file "index.html" [mkChange "replace" 1 (Some "Y")] s1
        = (inr (RStatusChanges "index.html"
                  [mkChange "replace" 1 (Some "Y")]),
           (update_file "index.html"
              ([mkChange "insert" 1 (Some "X")]
               ++ [mkChange "replace" 1 (Some "Y")])
              (Some {["index.html" := abc]})).2).
Proof.
  split; [reflexivity |]. split; [reflexivity |].
  assert (Forall (λ c, plain_content c = true)
            [mkChange "insert" 1 (Some "X")]) as Hplain.
  { constructor; [reflexivity | constructor]. }
  split; [exact Hplain |].
  apply (X6_batch_split {["index.html" := abc]} "index.html" abc
           [mkChange "insert" 1 (Some "X")]
           [mkChange "replace" 1 (Some "Y")]);
    [reflexivity | reflexivity | exact Hplain].
Defined.

(** X7.  An insert at the index equal to the number of lines writes the
    text that was read followed directly by the content and a newline.
    When the text read does not end with a newline and the content holds
    none, the written text has as many lines as the text read: the
    content continues the last line. *)
Theorem X7_insert_at_end
    (m : gmap string string) (file raw : string) (c : option string) :
  m !! file = Some raw →
  (update_file file
     [mkChange "insert"
        (Z.of_nat (length (readlines (universal_newlines raw)))) c]
     (Some m)).2
  = Some (<[file :=
            universal_newlines raw +:+ default EmptyString c +:+ nl]> m)
  ∧ (terminated (universal_newlines raw) = false →
     no_lf (default EmptyString c) = true →
     length
       (readlines
          (universal_newlines raw +:+ default EmptyString c +:+ nl))
     = length (readlines (universal_newlines raw))).
Proof.
  intros Hraw. split.
  - rewrite (update_file_present m file raw _ Hraw). cbn [snd apply_changes].
    rewrite apply_change_insert_in by done.
    rewrite take_ge, drop_ge by done.
    rewrite writelines_app, writelines_readlines. cbn [writelines].
    by rewrite append_nil_r.
  - apply length_readlines_unterminated.
Qed.

Lemma X7_insert_at_end_witness :
  ({["index.html" := "a"]} : gmap string string) !! "index.html" = Some "a"
  ∧ (update_file "index.html"
       [mkChange "insert"
          (Z.of_nat (length (readlines (universal_newlines "a"))))
          (Some "b")]
       (Some {["index.html" := "a"]})).2
    = Some (<["index.html" := universal_newlines "a" +:+ "b" +:+ nl]>
            {["index.html" := "a"]}).
Proof.
  split; [reflexivity |].
  refine (proj1 (X7_insert_at_end {["index.html" := "a"]} "index.html" "a"
                   (Some "b") _)).
  reflexivity.
Defined.

(** X8.  Patching keeps a file terminated: when the text read is empty
    or ends with a newline, the text any batch leaves is, read again,
    empty or ending with a newline. *)
Theorem X8_patch_keeps_terminated
    (m : gmap string string) (file raw : string) (changes : list Change) :
  m !! file = Some raw →
  terminated (universal_newlines raw) = true →
  ∃ written : string,
    (update_file file changes (Some m)).2 = Some (<[file := written]> m)
    ∧ terminated (universal_newlines written) = true.
Proof.
  intros Hraw Hterm.
  exists (Spec.join_lines
            (Spec.apply_batch changes
               (Spec.split_lines (universal_newlines raw)))).
  split.
  - rewrite (update_file_present m file raw _ Hraw). cbn [snd].
    rewrite (readlines_split_lines _ Hterm), apply_changes_fmap.
    by rewrite writelines_join_lines.
  - apply terminated_universal_newlines, join_lines_terminated.
Qed.

Lemma X8_patch_keeps_terminated_witness :
  ({["index.html" := abc]} : gmap string string) !! "index.html" = Some abc
  ∧ terminated (universal_newlines abc) = true
  ∧ ∃ written : string,
      (update_file "index.html" insert_then_replace
         (Some {["index.html" := abc]})).2
      = Some (<["index.html" := written]> {["index.html" := abc]})
      ∧ terminated (universal_newlines written) = true.
Proof.
  split; [reflexivity |]. split; [reflexivity |].
  apply (X8_patch_keeps_terminated {["index.html" := abc]} "index.html" abc
           insert_then_replace); reflexivity.
Defined.

(** X9.  The empty batch stores the text as it is read, every carriage
    return or carriage return and newline turned into one newline, and a
    second empty batch changes nothing more. *)
Theorem X9_empty_batch_normalises
    (m : gmap string string) (file raw : string) :
  m !! file = Some raw →
  update_file file [] (Some m)
  = (inr (RStatusChanges file []),
     Some (<[file := universal_newlines raw]> m))
  ∧ update_file file [] (Some (<[file := universal_newlines raw]> m))
    = (inr (RStatusChanges file []),
       Some (<[file := universal_newlines raw]> m)).
Proof.
  intros Hraw. split.
  - rewrite (update_file_present m file raw _ Hraw). cbn [apply_changes].
    by rewrite writelines_readlines.
  - rewrite (update_file_present _ file (universal_newlines raw) [])
      by apply lookup_insert_eq.
    cbn [apply_changes].
    by rewrite writelines_readlines, universal_newlines_idemp,
      insert_insert_eq.
Qed.

Lemma X9_empty_batch_normalises_witness :
  ({["index.html" := cr_text]} : gmap string string) !! "index.html"
  = Some cr_text
  ∧ update_file "index.html" [] (Some {["index.html" := cr_text]})
    = (inr (RStatusChanges "index.html" []),
       Some (<["index.html" := universal_newlines cr_text]>
             {["index.html" := cr_text]})).
Proof.
  split; [reflexivity |].
  refine (proj1 (X9_empty_batch_normalises {["index.html" := cr_text]}
                   "index.html" cr_text _)).
  reflexivity.
Defined.

(** X10.  On an existing empty file a single change has an effect only
    when it is an insert at line 0, which writes the content and a
    newline; every other change leaves the file empty. *)
Theorem X10_patch_empty_file
    (m : gmap string string) (file : string) (change : Change) :
  m !! file = Some EmptyString →
  (update_file file [change] (Some m)).2
  = Some (<[file :=
            if String.eqb change.(action) "insert" && (change.(line) =? 0)
            then default EmptyString change.(content) +:+ nl
            else EmptyString]> m).
Proof.
  intros Hraw. rewrite (update_file_present m file _ _ Hraw).
  cbn [snd universal_newlines readlines apply_changes].
  do 2 f_equal. unfold apply_change, list_insert_at. cbn [length].
  destruct change as [a l c]. cbn [action line content].
  destruct (String.eqb_spec a "replace") as [-> | _].
  { cbn [String.eqb Ascii.eqb Bool.eqb andb].
    by destruct ((0 <=? l) && (l <? Z.of_nat 0)). }
  destruct (String.eqb_spec a "insert") as [-> | _].
  { cbn [andb]. destruct (Z.eqb_spec l 0) as [-> | Hne].
    - change (writelines [default EmptyString c +:+ nl]
              = default EmptyString c +:+ nl).
      cbn [writelines]. by rewrite append_nil_r.
    - destruct (Z.leb_spec 0 l), (Z.leb_spec l (Z.of_nat 0));
        cbn [andb]; try done.
      lia. }
  cbn [andb]. destruct (String.eqb a "delete"); [| done].
  by destruct ((0 <=? l) && (l <? Z.of_nat 0)).
Qed.

Lemma X10_patch_empty_file_witness :
  ({["index.html" := EmptyString]} : gmap string string) !! "index.html"
  = Some EmptyString
  ∧ (update_file "index.html" [mkChange "insert" 0 (Some "<p>")]
       (Some {["index.html" := EmptyString]})).2
    = Some (<["index.html" := "<p>" +:+ nl]>
            {["index.html" := EmptyString]}).
Proof.
  split; [reflexivity |].
  refine (X10_patch_empty_file {["index.html" := EmptyString]} "index.html"
            (mkChange "insert" 0 (Some "<p>")) _).
  reflexivity.
Defined.

(** ** Facts about the tools and the served calls *)

Section tool_facts.

Implicit Types (m : gmap string string) (s : fs) (file : string).

Lemma get_website_state_spec s :
  ∃ (w : gmap string string) m1,
    get_website_state s = (inr (RWebsite w), Some m1)
    ∧ (ensure_files_exist s).2 = Some m1
    ∧ (∀ f, m1 !! f = match stored f s with
                      | Some c => Some c
                      | None => if bool_decide (f ∈ FILES)
                                then Some EmptyString else None
                      end)
    ∧ ∀ f, w !! f = if bool_decide (f ∈ FILES)
                    then universal_newlines <$> m1 !! f else None.
Proof.
  unfold get_website_state, bind.
  destruct (ensure_files_exist_spec s) as (m1 & Heq & Hlk). rewrite Heq.
  destruct (read_loop_spec FILES ∅ m1) as (w & Hw & Hwl).
  { intros f Hf. rewrite Hlk. destruct (stored f s); [eauto |].
    rewrite bool_decide_eq_true_2 by done. eauto. }
  rewrite Hw. exists w, m1. split; [done |]. split; [done |].
  split; [exact Hlk |]. intros f. rewrite Hwl.
  destruct (bool_decide (f ∈ FILES)); [done | apply lookup_empty].
Qed.

Lemma read_file_state s file : (read_file file s).2 = s.
Proof.
  destruct (stored file s) as [raw|] eqn:Hraw.
  - by rewrite (read_file_present s file raw Hraw).
  - by rewrite (read_file_absent s file Hraw).
Qed.



Lemma write_file_stored s file text f :
  stored f (write_file file text s).2
  = match s with
    | Some _ => if decide (file = f) then Some text else stored f s
    | None => None
    end.
Proof.
  destruct s as [m|]; [| done]. rewrite write_file_present.
  cbn [snd stored]. unfold linesep_out. apply lookup_insert.
Qed.

Lemma update_file_stored s file changes f :
  f ≠ file → stored f (update_file file changes s).2 = stored f s.
Proof.
  intros Hne. destruct (stored file s) as [raw|] eqn:Hraw.
  - destruct s as [m|]; [| done]. cbn [stored] in Hraw.
    rewrite (update_file_present m file raw changes Hraw).
    cbn [snd stored]. by apply lookup_insert_ne.
  - by rewrite (update_file_absent s file changes Hraw).
Qed.

Lemma update_file_keeps s file changes :
  is_Some (stored file s) → is_Some (stored file (update_file file changes s).2).
Proof.
  intros [raw Hraw]. destruct s as [m|]; [| done]. cbn [stored] in Hraw.
  rewrite (update_file_present m file raw changes Hraw).
  cbn [snd stored]. rewrite lookup_insert_eq. eauto.
Qed.

(** What any one call leaves of the files. *)
Lemma call_tool_frame s (c : tool_call) :
  (∀ f, is_Some (stored f s) → is_Some (stored f (call_tool c s).2))
  ∧ (∀ f, f ∉ FILES → stored f (call_tool c s).2 = stored f s).
Proof.
  destruct c as [| |file|file text|file changes]; cbn [call_tool].
  - unfold ensure_website.
    destruct (ensure_files_exist_spec s) as (m1 & Heq & Hlk). rewrite Heq.
    cbn [snd stored]. split; intros f Hf; rewrite Hlk.
    + by destruct Hf as [c ->].
    + destruct (stored f s); [done |]. by rewrite bool_decide_eq_false_2.
  - unfold get_website.
    destruct (get_website_state_spec s) as (w & m1 & Heq & _ & Hlk & _).
    rewrite Heq. cbn [snd stored]. split; intros f Hf; rewrite Hlk.
    + by destruct Hf as [c ->].
    + destruct (stored f s); [done |]. by rewrite bool_decide_eq_false_2.
  - unfold read_file_tool.
    destruct (negb (bool_decide (file ∈ FILES))); [done |].
    by rewrite read_file_state.
  - unfold write_file_tool.
    destruct (bool_decide (file ∈ FILES)) eqn:Hin; cbn [negb]; [| done].
    apply bool_decide_eq_true_1 in Hin.
    split; intros f Hf; rewrite write_file_stored.
    + destruct s as [m|]; [| by destruct Hf]. by case_decide.
    + destruct s as [m|]; [| done]. case_decide; [by subst | done].
  - unfold update_file_tool.
    destruct (bool_decide (file ∈ FILES)) eqn:Hin; cbn [negb]; [| done].
    apply bool_decide_eq_true_1 in Hin. split; intros f Hf.
    + destruct (decide (f = file)) as [-> | Hne].
      * by apply update_file_keeps.
      * by rewrite update_file_stored.
    + rewrite update_file_stored; [done |]. by intros ->.
Qed.




End tool_facts.

(** ** What the tools keep *)

(** X11.  In the state [ensure_files_exist] leaves, whatever the state
    before, reading a valid name returns its content, which is empty for
    a file that was missing, patching it returns the ok record, and no
    name outside the three valid ones has been created or changed. *)
Theorem X11_after_ensure
    (s : fs) (file : string) (changes : list Change) :
  file ∈ FILES →
  read_file_tool file (ensure_files_exist s).2
  = (inr (RContent file
            (universal_newlines (default EmptyString (stored file s)))),
     (ensure_files_exist s).2)
  ∧ (∃ s2, update_file_tool file changes (ensure_files_exist s).2
           = (inr (RStatusChanges file changes), s2))
  ∧ (∀ f, f ∉ FILES → stored f (ensure_files_exist s).2 = stored f s).
Proof.
  intros Hin.
  destruct (ensure_files_exist_spec s) as (m1 & Heq & Hlk). rewrite Heq.
  cbn [snd].
  assert (m1 !! file = Some (default EmptyString (stored file s))) as Hfile.
  { rewrite Hlk. destruct (stored file s); [done |].
    by rewrite bool_decide_eq_true_2. }
  unfold read_file_tool, update_file_tool.
  rewrite bool_decide_eq_true_2 by done. cbn [negb].
  split; [by apply read_file_present |]. split.
  - rewrite (update_file_present m1 file _ changes Hfile). eauto.
  - intros f Hf. cbn [stored]. rewrite Hlk.
    destruct (stored f s); [done |]. by rewrite bool_decide_eq_false_2.
Qed.

Lemma X11_after_ensure_witness :
  "script.js" ∈ FILES
  ∧ read_file_tool "script.js" (ensure_files_exist None).2
    = (inr (RContent "script.js"
              (universal_newlines (default EmptyString
                                     (stored "script.js" None)))),
       (ensure_files_exist None).2).
Proof.
  assert ("script.js" ∈ FILES) as Hin.
  { apply list_elem_of_further, list_elem_of_further, list_elem_of_here. }
  split; [exact Hin |].
  exact (proj1 (X11_after_ensure None "script.js" [] Hin)).
Defined.


(** X13.  One call of any tool, from any state and whether it returns
    or raises, removes no file and neither creates nor changes a name
    outside the three valid ones. *)
Theorem X13_call_removes_nothing (s : fs) (c : tool_call) :
  (∀ f, is_Some (stored f s) → is_Some (stored f (call_tool c s).2))
  ∧ (∀ f, f ∉ FILES → stored f (call_tool c s).2 = stored f s).
Proof. apply call_tool_frame. Qed.

(** X14.  What [get_website] returns for a valid name is what
    [read_file_tool] returns for it right afterwards, and that read
    changes nothing. *)
Theorem X14_snapshot_agrees_with_read (s : fs) :
  ∃ (w : gmap string string) (s1 : fs),
    get_website s = (inr (RWebsite w), s1)
    ∧ ∀ f, f ∈ FILES →
           ∃ c, w !! f = Some c
                ∧ read_file_tool f s1 = (inr (RContent f c), s1).
Proof.
  unfold get_website.
  destruct (get_website_state_spec s) as (w & m1 & Heq & _ & Hlk & Hw).
  exists w, (Some m1). split; [exact Heq |]. intros f Hf.
  assert (m1 !! f = Some (default EmptyString (stored f s))) as Hfile.
  { rewrite Hlk. destruct (stored f s); [done |].
    by rewrite bool_decide_eq_true_2. }
  exists (universal_newlines (default EmptyString (stored f s))). split.
  - by rewrite Hw, bool_decide_eq_true_2, Hfile.
  - unfold read_file_tool. rewrite bool_decide_eq_true_2 by done.
    cbn [negb]. by apply read_file_present.
Qed.

(** X15.  No content the program returns holds a carriage return: not
    the content [read_file_tool] returns, which is the stored text with
    its line ends translated, and no value of the dictionary
    [get_website_state] returns. *)
Theorem X15_returned_content_without_cr (s : fs) :
  (∀ file f c s',
     read_file_tool file s = (inr (RContent f c), s') →
     s' = s
     ∧ (∃ raw, stored file s = Some raw ∧ c = universal_newlines raw)
     ∧ no_cr c = true)
  ∧ (∀ w s',
       get_website_state s = (inr (RWebsite w), s') →
       ∀ f c, w !! f = Some c → no_cr c = true).
Proof.
  split.
  - intros file f c s' Hread. unfold read_file_tool in Hread.
    destruct (negb (bool_decide (file ∈ FILES))); [done |].
    destruct (stored file s) as [raw|] eqn:Hraw.
    + rewrite (read_file_present s file raw Hraw) in Hread.
      injection Hread as <- <- <-. split; [done |].
      split; [eauto | apply no_cr_universal_newlines].
    + by rewrite (read_file_absent s file Hraw) in Hread.
  - intros w s' Hget f c Hc.
    destruct (get_website_state_spec s) as (w0 & m1 & Heq & _ & _ & Hw).
    rewrite Heq in Hget. injection Hget as <- <-.
    rewrite Hw in Hc. destruct (bool_decide (f ∈ FILES)); [| done].
    destruct (m1 !! f) as [raw|]; [| done]. injection Hc as <-.
    apply no_cr_universal_newlines.
Qed.

(** X16.  The checks at the top of the module pass exactly when both
    variables are set to a text that is not empty; an AUTH0_DOMAIN that
    is unset or empty gives its own error whatever the other variable
    is. *)
Theorem X16_check_environment (environ : gmap string string) :
  (∀ d u, check_environment environ = inr (d, u)
          ↔ environ !! "AUTH0_DOMAIN" = Some d ∧ d ≠ EmptyString
            ∧ environ !! "RESOURCE_SERVER_URL" = Some u ∧ u ≠ EmptyString)
  ∧ (environ !! "AUTH0_DOMAIN" = None
     ∨ environ !! "AUTH0_DOMAIN" = Some EmptyString →
     check_environment environ
     = inl (ValueError "AUTH0_DOMAIN environment variable is required"))
  ∧ (truthy (environ !! "AUTH0_DOMAIN") = true →
     environ !! "RESOURCE_SERVER_URL" = None
     ∨ environ !! "RESOURCE_SERVER_URL" = Some EmptyString →
     check_environment environ
     = inl (ValueError
              "RESOURCE_SERVER_URL environment variable is required")).
Proof.
  unfold check_environment.
  destruct (environ !! "AUTH0_DOMAIN") as [[|a d']|];
    destruct (environ !! "RESOURCE_SERVER_URL") as [[|b u']|];
    cbn [truthy negb default]; unfold id;
    (split; [intros d u; split | split]);
    intuition congruence.
Qed.

(** X17.  While the project directory is absent, reading or patching a
    valid name returns the record saying the file does not exist, but
    writing it raises: [write_file] opens the file without a check and
    does not create the directory.  Nothing is changed in either
    case. *)
Theorem X17_missing_directory
    (file content : string) (changes : list Change) :
  file ∈ FILES →
  read_file_tool file None
  = (inr (RError (file +:+ " does not exist")), None)
  ∧ update_file_tool file changes None
    = (inr (RError (file +:+ " does not exist")), None)
  ∧ write_file_tool file content None
    = (inl (FileNotFoundError file), None).
Proof.
  intros Hin. unfold read_file_tool, update_file_tool, write_file_tool.
  rewrite bool_decide_eq_true_2 by done. cbn [negb].
  split; [by apply read_file_absent |].
  split; [by apply update_file_absent | apply write_file_no_dir].
Qed.

Lemma X17_missing_directory_witness :
  "index.html" ∈ FILES
  ∧ write_file_tool "index.html" "<h1>Hi</h1>" None
    = (inl (FileNotFoundError "index.html"), None).
Proof.
  assert ("index.html" ∈ FILES) as Hin by apply list_elem_of_here.
  split; [exact Hin |].
  exact (proj2 (proj2 (X17_missing_directory "index.html" "<h1>Hi</h1>" []
                         Hin))).
Defined.
